(** * SQL via SQLAlchemy: a shallow embedding of the tutorial scripts

    Sources:
    - [src/tutorial/00_installation/sqla_introduction.py]: the import-time
      version check, [get_sqlite_engine], [hello_sql],
      [create_coords_table] and [main];
    - [src/tutorial/02_table_primer_alembic/migenv/versions/
       27fc5c72440c_create_users_table.py]: the [upgrade]/[downgrade] pair.

    The Python built-ins the scripts rely on ([str.split], [int], tuple
    comparison, truthiness, [str] of a [pathlib.Path]) are written out.
    The relational store behind the engine (SQLAlchemy + aiosqlite +
    SQLite) is not code of this repository; it is modelled from the
    spec's description of handles, scoped connections and commits. *)

From stdpp Require Import base gmap strings list.
From Stdlib Require Import ZArith QArith Ascii String.
Open Scope string_scope.

(* ------------------------------------------------------------------ *)
(** ** Python exceptions and a small error monad *)

Inductive exc :=
| ValueError (literal : string)
| ImportError (msg : string)
| StatementError (msg : string).

Inductive res (A : Type) :=
| Ok (a : A)
| Raise (e : exc).
Arguments Ok {A} a.
Arguments Raise {A} e.

Definition res_bind {A B} (m : res A) (k : A -> res B) : res B :=
  match m with
  | Ok a => k a
  | Raise e => Raise e
  end.

Notation "x <- m ;; k" := (res_bind m (fun x => k))
  (at level 100, m at next level, right associativity).

(** [for x in xs] evaluated left to right, the first exception wins
    (the generator inside [tuple(...)]). *)
Fixpoint res_map {A B} (f : A -> res B) (xs : list A) : res (list B) :=
  match xs with
  | [] => Ok []
  | x :: xs' => y <- f x ;; ys <- res_map f xs' ;; Ok (y :: ys)
  end.

(* ------------------------------------------------------------------ *)
(** ** Python built-ins used by the version check *)

Module Py.

(** [s.split(sep)] for a one-character separator: never empty, keeps
    empty fields ("a..b".split(".") == ["a", "", "b"]). *)
Fixpoint split (sep : ascii) (s : string) : list string :=
  match s with
  | EmptyString => [""]
  | String c r =>
      if Ascii.eqb c sep then "" :: split sep r
      else match split sep r with
           | [] => [String c ""]
           | h :: t => String c h :: t
           end
  end.

(** ASCII characters for which [str.isspace()] holds, the ones [int()]
    strips: \t \n \v \f \r, the separators \x1c..\x1f and space. *)
Definition is_space (c : ascii) : bool :=
  let n := nat_of_ascii c in
  (Nat.leb 9 n && Nat.leb n 13) || (Nat.leb 28 n && Nat.leb n 31) || Nat.eqb n 32.

Definition is_digit (c : ascii) : bool :=
  let n := nat_of_ascii c in Nat.leb 48 n && Nat.leb n 57.


Definition digit_value (c : ascii) : Z := Z.of_nat (nat_of_ascii c - 48)%nat.

Fixpoint lstrip (l : list ascii) : list ascii :=
  match l with
  | c :: r => if is_space c then lstrip r else l
  | [] => []
  end.

Definition strip (l : list ascii) : list ascii :=
  rev (lstrip (rev (lstrip l))).

(** Base-10 digits with single underscores allowed between digits:
    [prev] says whether the previous character was a digit. *)
Fixpoint digits (acc : Z) (prev : bool) (l : list ascii) : option Z :=
  match l with
  | [] => if prev then Some acc else None
  | c :: r =>
      if is_digit c then digits (acc * 10 + digit_value c)%Z true r
      else if Ascii.eqb c "_" && prev then digits acc false r
      else None
  end.

(** CPython's default limit on the number of digits [int()] converts
    from a decimal string ([sys.get_int_max_str_digits()], 4300, since
    3.11 and 3.10.7): a longer digit string raises [ValueError]. *)
Definition INT_MAX_STR_DIGITS : nat := 4300.

Definition digit_count (l : list ascii) : nat := List.length (List.filter is_digit l).

Definition digits_limited (l : list ascii) : option Z :=
  if Nat.ltb INT_MAX_STR_DIGITS (digit_count l) then None else digits 0 false l.

(** [int(s)] on an ASCII string, base 10: surrounding whitespace is
    stripped, then an optional sign and the digits. *)
Definition int_opt (s : string) : option Z :=
  match strip (list_ascii_of_string s) with
  | c :: r =>
      if Ascii.eqb c "-" then Z.opp <$> digits_limited r
      else if Ascii.eqb c "+" then digits_limited r
      else digits_limited (c :: r)
  | [] => None
  end.

Definition int (s : string) : res Z :=
  match int_opt s with
  | Some z => Ok z
  | None => Raise (ValueError s)
  end.

(** Tuple comparison [<]: lexicographic, a proper prefix is smaller. *)
Fixpoint tuple_lt (a b : list Z) : bool :=
  match a, b with
  | [], [] => false
  | [], _ :: _ => true
  | _ :: _, [] => false
  | x :: a', y :: b' =>
      if Z.ltb x y then true
      else if Z.ltb y x then false
      else tuple_lt a' b'
  end.

End Py.

(* ------------------------------------------------------------------ *)
(** ** Module level of [sqla_introduction.py] (lines 17-21) *)

(** [tuple(int(item) for item in sqla.__version__.split("."))] *)
Definition parse_version (version : string) : res (list Z) :=
  res_map Py.int (Py.split "." version).

(** The value of a run of decimal digits. *)
Definition decimal (l : list ascii) : Z :=
  fold_left (fun a c => a * 10 + Py.digit_value c)%Z l 0%Z.

Definition MIN_VERSION : list Z := [2; 0; 0]%Z.

Record sqla_module := { SQLALCHEMY_VERSION : list Z }.

(** Importing the module: the version tuple is computed, then
    [if SQLALCHEMY_VERSION < (2, 0, 0): raise ImportError("SQLAlchemy < 2.0")]. *)
Definition import_module (version : string) : res sqla_module :=
  v <- parse_version version ;;
  if Py.tuple_lt v MIN_VERSION then Raise (ImportError "SQLAlchemy < 2.0")
  else Ok {| SQLALCHEMY_VERSION := v |}.

(* ------------------------------------------------------------------ *)
(** ** Arguments of [get_sqlite_engine]: [pathlib.Path | str | None] *)

Module PyPath.

(** A [pathlib.PurePosixPath] as CPython stores it: its root ("", "/"
    or exactly two leading slashes "//") and its parts, where empty
    parts and "." are dropped. *)
Record path := { root : string; parts : list string }.

Definition of_string (s : string) : path :=
  let root :=
    if String.prefix "//" s && negb (String.prefix "///" s) then "//"
    else if String.prefix "/" s then "/" else "" in
  {| root := root;
     parts := filter (fun x => negb (String.eqb x "") && negb (String.eqb x "."))
                     (Py.split "/" s) |}.

(** [str(p)]: the root and the parts joined by "/", or "." when both
    are empty. *)
Definition to_str (p : path) : string :=
  match root p, parts p with
  | "", [] => "."
  | r, ps => r ++ String.concat "/" ps
  end.

End PyPath.

Inductive pyarg :=
| ANone
| AStr (s : string)
| APath (p : PyPath.path).

(** [bool(x)]: [None] is falsy, a [str] is falsy iff empty, a
    [pathlib.Path] defines neither [__bool__] nor [__len__] and is
    always truthy. *)
Definition truthy (a : pyarg) : bool :=
  match a with
  | ANone => false
  | AStr s => negb (String.eqb s "")
  | APath _ => true
  end.

(** [str(x)] *)
Definition py_str (a : pyarg) : string :=
  match a with
  | ANone => "None"
  | AStr s => s
  | APath p => PyPath.to_str p
  end.

(* ------------------------------------------------------------------ *)
(** ** [get_sqlite_engine] (lines 24-60) *)

Definition MEMORY : string := ":memory:".
Definition URL_PREFIX : string := "sqlite+aiosqlite:///".

(** [<dialect>+<driver>:///<location>] *)
Definition url_of (dialect driver location : string) : string :=
  dialect ++ "+" ++ driver ++ ":///" ++ location.

(** The handle: what [create_async_engine] is given. *)
Record engine := {
  url : string;
  check_same_thread : bool;
  echo : bool
}.

Definition create_async_engine (url0 : string) (same_thread echo0 : bool) : engine :=
  {| url := url0; check_same_thread := same_thread; echo := echo0 |}.

(** [db_loc = str(dbfile) if dbfile else ":memory:"],
    [constr = f"sqlite+aiosqlite:///{db_loc}"]. *)
Definition db_loc (dbfile : pyarg) : string :=
  if truthy dbfile then py_str dbfile else MEMORY.

Definition sqlite_engine (dbfile : pyarg) : engine :=
  let constr := URL_PREFIX ++ db_loc dbfile in
  create_async_engine constr false true.

(* ------------------------------------------------------------------ *)
(** ** The relational store behind a handle *)

(** Scalar values carried by parameters and rows. A Python float is
    written by its decimal literal as a rational ([1.2] is [12 # 10]);
    the scripts only store and read such values back, they never compute
    with them. *)
Inductive value :=
| VNull
| VInt (z : Z)
| VFloat (q : Q)
| VText (s : string).

(** Python's [==] on these values: ints and floats compare numerically. *)
Definition py_eq (a b : value) : bool :=
  match a, b with
  | VNull, VNull => true
  | VInt x, VInt y => Z.eqb x y
  | VFloat p, VFloat q => Qeq_bool p q
  | VInt x, VFloat q => Qeq_bool (inject_Z x) q
  | VFloat p, VInt y => Qeq_bool p (inject_Z y)
  | VText s, VText t => String.eqb s t
  | _, _ => false
  end.

Inductive coltype :=
| CFloat
| CInteger
| CUnicode (n : nat).

Record column := { col_name : string; col_type : coltype; col_pk : bool }.

Definition row := list value.

Record table := { tcols : list column; trows : list row }.

(** A parameter set: placeholder name to value. *)
Definition mapping := list (string * value).

Inductive params :=
| PNone
| POne (m : mapping)
| PMany (ms : list mapping).

(** Text statements of the scripts, by shape:
    [SELECT 'lit']; [CREATE TABLE t (cols)]; [DROP TABLE t];
    [INSERT INTO t (c1, ..) VALUES (:p1, ..)]; [SELECT c1, .. FROM t]. *)
Inductive stmt :=
| SelectLiteral (v : value)
| CreateTable (t : string) (cols : list column)
| DropTable (t : string)
| InsertValues (t : string) (cols : list string) (phs : list string)
| SelectFrom (t : string) (cols : list string).

Definition placeholders (s : stmt) : list string :=
  match s with
  | InsertValues _ _ phs => phs
  | _ => []
  end.

Fixpoint assoc {A} (k : string) (l : list (string * A)) : option A :=
  match l with
  | [] => None
  | (k', v) :: r => if String.eqb k k' then Some v else assoc k r
  end.

Fixpoint col_index (cs : list column) (n : string) : option nat :=
  match cs with
  | [] => None
  | c :: r => if String.eqb (col_name c) n then Some 0%nat else S <$> col_index r n
  end.

(** Column affinity: a column declared [float] has REAL affinity and
    stores an integer as a real. *)
Definition store_value (t : coltype) (v : value) : value :=
  match t, v with
  | CFloat, VInt z => VFloat (inject_Z z)
  | _, _ => v
  end.

Definition keys_match (phs : list string) (m : mapping) : bool :=
  forallb (fun k => bool_decide (k ∈ phs)) (map fst m)
  && forallb (fun p => bool_decide (p ∈ map fst m)) phs.

(** The row an [INSERT INTO t (cols) VALUES (:phs)] adds for mapping [m]:
    every column of the table in declaration order, the unnamed ones
    NULL. *)
Definition insert_row (tcs : list column) (cols phs : list string) (m : mapping) : row :=
  map (fun c =>
         match assoc (col_name c) (zip cols phs) with
         | Some ph => store_value (col_type c) (default VNull (assoc ph m))
         | None => VNull
         end) tcs.

Definition project (tcs : list column) (cols : list string) (r : row) : row :=
  map (fun n => match col_index tcs n with
                | Some i => default VNull (r !! i)
                | None => VNull
                end) cols.

Definition columns_exist (tcs : list column) (cols : list string) : bool :=
  forallb (fun n => bool_decide (is_Some (col_index tcs n))) cols.

Definition err {A} (msg : string) : res A := Raise (StatementError msg).

(** Modelled from the spec: one application of a statement to one
    parameter set; a malformed statement, a parameter set not matching
    the placeholders or a constraint violation raises [StatementError]. *)
Definition exec_once (d : gmap string table) (s : stmt) (m : mapping)
  : res (gmap string table * list row) :=
  if negb (keys_match (placeholders s) m) then err "parameters do not match placeholders"
  else match s with
  | SelectLiteral v => Ok (d, [[v]])
  | CreateTable t cols =>
      match d !! t with
      | Some _ => err ("table " ++ t ++ " already exists")
      | None => Ok (<[t := {| tcols := cols; trows := [] |}]> d, [])
      end
  | DropTable t =>
      match d !! t with
      | Some _ => Ok (delete t d, [])
      | None => err ("no such table: " ++ t)
      end
  | InsertValues t cols phs =>
      match d !! t with
      | None => err ("no such table: " ++ t)
      | Some tb =>
          if negb (columns_exist (tcols tb) cols) then err "no such column"
          else if negb (Nat.eqb (List.length cols) (List.length phs)) then err "column count mismatch"
          else Ok (<[t := {| tcols := tcols tb;
                             trows := trows tb ++ [insert_row (tcols tb) cols phs m] |}]> d, [])
      end
  | SelectFrom t cols =>
      match d !! t with
      | None => err ("no such table: " ++ t)
      | Some tb =>
          if negb (columns_exist (tcols tb) cols) then err "no such column"
          else Ok (d, map (project (tcols tb) cols) (trows tb))
      end
  end.

(** Modelled from the spec: batch mode, the statement is applied once
    per mapping, in order. *)
Fixpoint exec_many (d : gmap string table) (s : stmt) (ms : list mapping)
  : res (gmap string table) :=
  match ms with
  | [] => Ok d
  | m :: ms' => r <- exec_once d s m ;; exec_many r.1 s ms'
  end.

Definition execute (d : gmap string table) (s : stmt) (p : params)
  : res (gmap string table * list row) :=
  match p with
  | PNone => exec_once d s []
  | POne m => exec_once d s m
  | PMany ms => d' <- exec_many d s ms ;; Ok (d', [])
  end.

(* ------------------------------------------------------------------ *)
(** ** Handles, scoped connections and the process state *)

Inductive location :=
| Memory
| File (path : string).

(** Modelled from the spec: the location a handle reaches, read off the
    part of the URL after [sqlite+aiosqlite:///]; the marker [:memory:]
    names a database held by the handle itself. *)
Definition location_of (e : engine) : location :=
  let n := String.length URL_PREFIX in
  let loc := substring n (String.length (url e) - n)%nat (url e) in
  if String.eqb loc MEMORY then Memory else File loc.

Inductive event :=
| EvCreateEngine (u : string)
| EvConnect (u : string).

(** The durable state: database files by path, the in-memory database
    held by the handle's pool, and the log of engine creations and
    connection attempts. *)
Record world := {
  files : gmap string (gmap string table);
  mem : gmap string table;
  log : list event
}.

Definition durable (e : engine) (w : world) : gmap string table :=
  match location_of e with
  | Memory => mem w
  | File p => default ∅ (files w !! p)
  end.

Definition set_durable (e : engine) (w : world) (d : gmap string table) : world :=
  match location_of e with
  | Memory => {| files := files w; mem := d; log := log w |}
  | File p => {| files := <[p := d]> (files w); mem := mem w; log := log w |}
  end.

Definition add_event (ev : event) (w : world) : world :=
  {| files := files w; mem := mem w; log := log w ++ [ev] |}.

(** Stateful code: a state-and-error monad over [world]. *)
Definition io (A : Type) := world -> world * res A.

Definition io_ret {A} (a : A) : io A := fun w => (w, Ok a).

Definition io_bind {A B} (m : io A) (k : A -> io B) : io B :=
  fun w => match m w with
           | (w', Ok a) => k a w'
           | (w', Raise e) => (w', Raise e)
           end.

Notation "x <-- m ;;; k" := (io_bind m (fun x => k))
  (at level 100, m at next level, right associativity).

Inductive action :=
| Exec (s : stmt) (p : params)
| Commit.

(** Modelled from the spec: the body of a connection scope runs on a
    working copy of the durable state ([work]); [commit] makes the
    working copy durable; a failing statement ends the scope. Each
    executed statement contributes its result rows. *)
Fixpoint run_actions (e : engine) (w : world) (work : gmap string table)
    (acts : list action) : world * res (list (list row)) :=
  match acts with
  | [] => (w, Ok [])
  | Exec s p :: r =>
      match execute work s p with
      | Raise ex => (w, Raise ex)
      | Ok (work', rows) =>
          let '(w', out) := run_actions e w work' r in
          (w', ys <- out ;; Ok (rows :: ys))
      end
  | Commit :: r => run_actions e (set_durable e w work) work r
  end.

(** Modelled from the spec: [async with engine.connect() as conn]; the
    working copy is dropped when the scope ends, so writes not committed
    are rolled back. *)
Definition connect (e : engine) (acts : list action) : io (list (list row)) :=
  fun w =>
    let w0 := add_event (EvConnect (url e)) w in
    run_actions e w0 (durable e w0) acts.

(** Modelled from the spec: [async with engine.begin() as transaction]
    commits when the body completes and rolls back when it fails. *)
Definition begin (e : engine) (acts : list action) : io (list (list row)) :=
  connect e (acts ++ [Commit]).

(** Modelled from the spec: [await engine.dispose()] releases the pool;
    the in-memory database it held is gone, a database file stays. *)
Definition dispose_world (e : engine) (w : world) : world :=
  match location_of e with
  | Memory => {| files := files w; mem := ∅; log := log w |}
  | File _ => w
  end.

Definition dispose (e : engine) : io unit :=
  fun w => (dispose_world e w, Ok tt).

(** [get_sqlite_engine(dbfile)] as a step of the process. *)
Definition get_sqlite_engine (dbfile : pyarg) : io engine :=
  fun w => let e := sqlite_engine dbfile in
           (add_event (EvCreateEngine (url e)) w, Ok e).

(* ------------------------------------------------------------------ *)
(** ** [hello_sql], [create_coords_table], [main] (lines 63-155) *)

Definition hello_sql (e : engine) : io (list (list row)) :=
  connect e [Exec (SelectLiteral (VText "Hello, SQLAlchemy!")) PNone].

Definition tabname : string := "Coords".

(** ["INSERT INTO Coords (x, y) VALUES (:x, :y)"] *)
Definition ins_stmt : stmt := InsertValues tabname ["x"; "y"] ["x"; "y"].

(** ["CREATE TABLE Coords (x float, y float)"] *)
Definition create_coords : stmt :=
  CreateTable tabname
    [ {| col_name := "x"; col_type := CFloat; col_pk := false |};
      {| col_name := "y"; col_type := CFloat; col_pk := false |} ].

Definition pt (x y : value) : mapping := [("x", x); ("y", y)].

(** The five literal mappings of lines 109-113. *)
Definition coords5 : list mapping :=
  [ pt (VInt 0) (VInt 0);
    pt (VFloat (12 # 10)) (VFloat (21 # 10));
    pt (VFloat (-21 # 10)) (VFloat (42 # 10));
    pt (VInt (-5)) (VInt (-9));
    pt (VFloat (99 # 10)) (VFloat (-132 # 10)) ].

Definition coords1 : list mapping := [pt (VInt 100) (VInt 200)].

(** Returns the rows of the final [SELECT x, y FROM Coords], the ones
    the loop of lines 132-133 prints. *)
Definition create_coords_table (e : engine) : io (list row) :=
  _ <-- connect e [Exec create_coords PNone; Exec ins_stmt (PMany coords5); Commit] ;;;
  _ <-- begin e [Exec ins_stmt (PMany coords1)] ;;;
  out <-- connect e [Exec (SelectFrom tabname ["x"; "y"]) PNone] ;;;
  io_ret (List.concat out).

Definition main (m : sqla_module) : io unit :=
  e <-- get_sqlite_engine ANone ;;;
  _ <-- hello_sql e ;;;
  _ <-- create_coords_table e ;;;
  dispose e.

(** Running the script: the module is imported first, then [main]. *)
Definition run_script (version : string) : io unit :=
  fun w => match import_module version with
           | Raise ex => (w, Raise ex)
           | Ok m => main m w
           end.

(* ------------------------------------------------------------------ *)
(** ** Revision [27fc5c72440c] *)

Definition USERS : string := "users".

Definition users_columns : list column :=
  [ {| col_name := "id"; col_type := CInteger; col_pk := true |};
    {| col_name := "full name"; col_type := CUnicode 100; col_pk := false |} ].

(** [op.create_table(USERS, Column("id", Integer, primary_key=True),
    Column("full name", Unicode(100)))], a [CREATE TABLE]. *)
Definition upgrade (d : gmap string table) : res (gmap string table) :=
  r <- exec_once d (CreateTable USERS users_columns) [] ;; Ok r.1.

(** [op.drop_table(USERS)], a [DROP TABLE]. *)
Definition downgrade (d : gmap string table) : res (gmap string table) :=
  r <- exec_once d (DropTable USERS) [] ;; Ok r.1.

(* ================================================================== *)
(** * Properties *)

(** ** Concrete runs *)

Definition w_empty : world := {| files := ∅; mem := ∅; log := [] |}.

Example parse_version_release : parse_version "2.0.23" = Ok [2; 0; 23]%Z.
Proof. reflexivity. Qed.

Example parse_version_short : import_module "2.0" = Raise (ImportError "SQLAlchemy < 2.0").
Proof. reflexivity. Qed.

Example split_empty_fields : Py.split "." "a..b" = ["a"; ""; "b"].
Proof. reflexivity. Qed.

Example path_str_normalised : PyPath.to_str (PyPath.of_string "//a/./b//") = "//a/b".
Proof. reflexivity. Qed.

(** ** The version check *)

(** ** The connection string *)

(** Claim C5. The URL handed to [create_async_engine] is
    [<dialect>+<driver>:///<location>] with dialect [sqlite] and driver
    [aiosqlite]: [:memory:] when no location is given, the string itself
    for a non-empty [str], and [str(p)] for a [pathlib.Path] [p]. *)
Theorem engine_url_format :
  (forall a, url (sqlite_engine a) = url_of "sqlite" "aiosqlite" (db_loc a)) /\
  url (sqlite_engine ANone) = "sqlite+aiosqlite:///:memory:" /\
  (forall s, s <> "" -> url (sqlite_engine (AStr s)) = "sqlite+aiosqlite:///" ++ s) /\
  (forall p, url (sqlite_engine (APath p)) = "sqlite+aiosqlite:///" ++ PyPath.to_str p).
Proof.
  split; [intros; reflexivity|]. split; [reflexivity|]. split.
  - intros s Hs. unfold sqlite_engine, db_loc. cbn.
    destruct (String.eqb_spec s ""); [contradiction|reflexivity].
  - intros; reflexivity.
Qed.

(** Claim C9, as the code has it ([dbfile] is tested for truthiness):
    the falsy arguments are exactly [None] and [""], and both give
    [:memory:]; a [pathlib.Path] is always truthy, so [Path("")], whose
    [str] is ".", gives the location "." and not [:memory:]. *)
Theorem falsy_dbfile_memory :
  (forall a, truthy a = false <-> a = ANone \/ a = AStr "") /\
  url (sqlite_engine ANone) = URL_PREFIX ++ MEMORY /\
  url (sqlite_engine (AStr "")) = URL_PREFIX ++ MEMORY /\
  url (sqlite_engine (APath (PyPath.of_string ""))) = URL_PREFIX ++ ".".
Proof.
  split; [|split; [reflexivity|split; reflexivity]].
  intros [|s|p]; cbn; split.
  - intros _. left. reflexivity.
  - reflexivity.
  - destruct (String.eqb_spec s ""); cbn; [intros _; right; subst; reflexivity|discriminate].
  - intros [H|H]; inversion H; reflexivity.
  - discriminate.
  - intros [H|H]; discriminate.
Qed.

(** Claim C9 fails as stated: [Path("")] does not target [:memory:]. *)
Lemma empty_path_not_memory :
  db_loc (APath (PyPath.of_string "")) = "." /\
  url (sqlite_engine (APath (PyPath.of_string ""))) <> "sqlite+aiosqlite:///:memory:".
Proof. split; [reflexivity|discriminate]. Qed.

(** ** [dispose] *)

(** Claim C8. Disposing twice is disposing once: the second [dispose]
    succeeds and leaves the state as the first left it. *)
Theorem dispose_idempotent (e : engine) (w : world) :
  dispose_world e (dispose_world e w) = dispose_world e w /\
  (_ <-- dispose e ;;; dispose e) w = dispose e w.
Proof.
  unfold io_bind, dispose, dispose_world.
  destruct (location_of e); split; reflexivity.
Qed.

(** ** Totality of the version parse *)









(** ** [int()] on digit strings *)

Lemma digits_all (l : list ascii) : forall acc prev,
  forallb Py.is_digit l = true -> (prev = true \/ l <> []) ->
  Py.digits acc prev l = Some (fold_left (fun a c => a * 10 + Py.digit_value c)%Z l acc).
Proof.
  induction l as [|c r IH]; intros acc prev Hd Hp; cbn in *.
  - destruct Hp as [->|]; [reflexivity|contradiction].
  - apply andb_prop in Hd as [Hc Hr]. rewrite Hc. apply IH; auto.
Qed.

Lemma digit_not_space (c : ascii) : Py.is_digit c = true -> Py.is_space c = false.
Proof. destruct c as [[] [] [] [] [] [] [] []]; vm_compute; congruence. Qed.

Lemma lstrip_digits (l : list ascii) :
  forallb Py.is_digit l = true -> Py.lstrip l = l.
Proof.
  destruct l as [|c r]; cbn; [reflexivity|].
  intros H. apply andb_prop in H as [Hc _]. rewrite (digit_not_space c Hc). reflexivity.
Qed.

Lemma forallb_rev' {A} (f : A -> bool) (l : list A) :
  forallb f (rev l) = forallb f l.
Proof.
  apply Bool.eq_true_iff_eq. rewrite !forallb_forall.
  split; intros H x Hx; apply H; [apply (proj1 (in_rev l x)), Hx|apply (proj2 (in_rev l x)), Hx].
Qed.

Lemma strip_digits (l : list ascii) :
  forallb Py.is_digit l = true -> Py.strip l = l.
Proof.
  intros H. unfold Py.strip. rewrite (lstrip_digits l H), lstrip_digits.
  - apply rev_involutive.
  - rewrite forallb_rev'. exact H.
Qed.

Lemma filter_forallb {A} (f : A -> bool) (l : list A) :
  forallb f l = true -> List.filter f l = l.
Proof.
  induction l as [|x l IH]; cbn; [reflexivity|].
  intros H. apply andb_prop in H as [Hx Hl]. rewrite Hx, (IH Hl). reflexivity.
Qed.

Lemma digits_limited_all (l : list ascii) :
  forallb Py.is_digit l = true -> l <> [] ->
  (List.length l <= Py.INT_MAX_STR_DIGITS)%nat ->
  Py.digits_limited l = Some (decimal l).
Proof.
  intros Hd Hne Hlen. unfold Py.digits_limited, Py.digit_count.
  rewrite (filter_forallb _ _ Hd).
  destruct (Nat.ltb_spec Py.INT_MAX_STR_DIGITS (List.length l)); [lia|].
  apply digits_all; [exact Hd|right; exact Hne].
Qed.


Lemma digit_not_sign (c : ascii) :
  Py.is_digit c = true -> c <> "-"%char /\ c <> "+"%char.
Proof. intros H; split; intros ->; discriminate. Qed.

(** On a run of decimal digits, [int()] is driven by its head. *)
Lemma int_opt_digit_head (c : string) (a : ascii) (r : list ascii) :
  list_ascii_of_string c = a :: r -> Py.is_digit a = true ->
  Py.strip (list_ascii_of_string c) = list_ascii_of_string c ->
  Py.int_opt c = Py.digits_limited (a :: r).
Proof.
  intros Hc Ha Hs. unfold Py.int_opt. rewrite Hs, Hc.
  destruct (digit_not_sign a Ha) as [Hm Hp].
  destruct (Ascii.eqb_spec a "-"); [contradiction|].
  destruct (Ascii.eqb_spec a "+"); [contradiction|reflexivity].
Qed.

Lemma int_all_digits (c : string) :
  c <> "" -> forallb Py.is_digit (list_ascii_of_string c) = true ->
  (List.length (list_ascii_of_string c) <= Py.INT_MAX_STR_DIGITS)%nat ->
  Py.int_opt c = Some (decimal (list_ascii_of_string c)).
Proof.
  intros Hne Hd Hlen.
  destruct (list_ascii_of_string c) as [|a r] eqn:Ec;
    [destruct c; [contradiction|discriminate]|].
  pose proof Hd as Hd'. apply andb_prop in Hd' as [Ha _].
  rewrite (int_opt_digit_head c a r Ec Ha); [|rewrite Ec; apply strip_digits, Hd].
  apply digits_limited_all; [exact Hd|discriminate|exact Hlen].
Qed.















(** "2.0.0b1" is refused by [int()]. *)
Example beta_version_value_error :
  import_module "2.0.0b1" = Raise (ValueError "0b1").
Proof. reflexivity. Qed.




(** ** Batch insertion *)

Lemma exec_many_insert (ms : list mapping) : forall d t tb cols phs,
  d !! t = Some tb -> columns_exist (tcols tb) cols = true ->
  List.length cols = List.length phs ->
  Forall (fun m => keys_match phs m = true) ms ->
  exec_many d (InsertValues t cols phs) ms =
  Ok (<[t := {| tcols := tcols tb;
                trows := (trows tb ++ map (insert_row (tcols tb) cols phs) ms)%list |}]> d).
Proof.
  induction ms as [|m ms IH]; intros d t tb cols phs Ht Hc Hl Hk; cbn.
  - rewrite app_nil_r. destruct tb. rewrite insert_id; [reflexivity|exact Ht].
  - inversion Hk as [|? ? Hm Hms]; subst.
    unfold exec_once. cbn [placeholders]. rewrite Hm, Ht, Hc, Hl, Nat.eqb_refl. cbn.
    rewrite (IH _ t {| tcols := tcols tb;
                       trows := (trows tb ++ [insert_row (tcols tb) cols phs m])%list |});
      [|apply lookup_insert_eq|exact Hc|exact Hl|exact Hms].
    cbn. rewrite insert_insert_eq, <- app_assoc. reflexivity.
Qed.

(** Claim C3. Executing one [INSERT INTO t (cols) VALUES (:phs)] with a
    list of [N] parameter mappings (each matching the placeholders, the
    spec's precondition) applies it once per mapping in list order: the
    table keeps its columns and gains exactly [N] rows, the [i]-th new
    row built from the [i]-th mapping. *)
Theorem batch_insert_in_order (d : gmap string table) (t : string) (tb : table)
    (cols phs : list string) (ms : list mapping) :
  d !! t = Some tb -> columns_exist (tcols tb) cols = true ->
  List.length cols = List.length phs ->
  Forall (fun m => keys_match phs m = true) ms ->
  exists tb',
    execute d (InsertValues t cols phs) (PMany ms) = Ok (<[t := tb']> d, []) /\
    tcols tb' = tcols tb /\
    trows tb' = (trows tb ++ map (insert_row (tcols tb) cols phs) ms)%list /\
    List.length (trows tb') = (List.length (trows tb) + List.length ms)%nat.
Proof.
  intros Ht Hc Hl Hk. eexists. unfold execute.
  rewrite (exec_many_insert ms d t tb cols phs Ht Hc Hl Hk). cbn.
  split; [reflexivity|]. split; [reflexivity|]. split; [reflexivity|].
  cbn [trows]. rewrite List.length_app, length_map. reflexivity.
Qed.

Definition coords_columns : list column :=
  [ {| col_name := "x"; col_type := CFloat; col_pk := false |};
    {| col_name := "y"; col_type := CFloat; col_pk := false |} ].

Lemma batch_insert_in_order_witness :
  exists tb',
    execute {[tabname := {| tcols := coords_columns; trows := [] |}]} ins_stmt (PMany coords5)
      = Ok (<[tabname := tb']> {[tabname := {| tcols := coords_columns; trows := [] |}]}, []) /\
    tcols tb' = coords_columns /\
    trows tb' = ([] ++ map (insert_row coords_columns ["x"; "y"] ["x"; "y"]) coords5)%list /\
    List.length (trows tb') = (0 + 5)%nat.
Proof.
  apply (batch_insert_in_order _ tabname {| tcols := coords_columns; trows := [] |}
           ["x"; "y"] ["x"; "y"] coords5).
  - apply lookup_singleton_eq.
  - reflexivity.
  - reflexivity.
  - repeat constructor.
Defined.

(** ** The Coords scenario *)

Lemma durable_add_event (e : engine) (ev : event) (w : world) :
  durable e (add_event ev w) = durable e w.
Proof. unfold durable, add_event. destruct (location_of e); reflexivity. Qed.

Lemma durable_set (e : engine) (w : world) (d : gmap string table) :
  durable e (set_durable e w d) = d.
Proof.
  unfold durable, set_durable. destruct (location_of e); cbn; [reflexivity|].
  rewrite lookup_insert_eq. reflexivity.
Qed.

Lemma exec_create_coords (d : gmap string table) :
  d !! tabname = None ->
  execute d create_coords PNone =
  Ok (<[tabname := {| tcols := coords_columns; trows := [] |}]> d, []).
Proof. intros H. unfold execute, exec_once, create_coords. cbn [placeholders]. rewrite H. reflexivity. Qed.

Lemma exec_insert_coords (d : gmap string table) (rs : list row) (ms : list mapping) :
  d !! tabname = Some {| tcols := coords_columns; trows := rs |} ->
  Forall (fun m => keys_match ["x"; "y"] m = true) ms ->
  execute d ins_stmt (PMany ms) =
  Ok (<[tabname := {| tcols := coords_columns;
                      trows := (rs ++ map (insert_row coords_columns ["x"; "y"] ["x"; "y"]) ms)%list |}]> d, []).
Proof.
  intros Ht Hk. unfold execute, ins_stmt.
  rewrite (exec_many_insert ms d tabname _ ["x"; "y"] ["x"; "y"] Ht eq_refl eq_refl Hk).
  reflexivity.
Qed.

Lemma exec_select_coords (d : gmap string table) (rs : list row) :
  d !! tabname = Some {| tcols := coords_columns; trows := rs |} ->
  execute d (SelectFrom tabname ["x"; "y"]) PNone =
  Ok (d, map (project coords_columns ["x"; "y"]) rs).
Proof. intros H. unfold execute, exec_once. cbn [placeholders]. rewrite H. reflexivity. Qed.

(** The check the printing loop would let a reader make: row [r] is the
    pair [(x, y)] of mapping [m], compared with Python's [==]. *)
Definition row_matches (r : row) (m : mapping) : bool :=
  match r with
  | [x; y] => py_eq x (default VNull (assoc "x" m)) && py_eq y (default VNull (assoc "y" m))
  | _ => false
  end.

(** Claim C2. On a handle whose database has no [Coords] table,
    [create_coords_table] creates [Coords(x float, y float)], inserts the
    five literal rows and commits, inserts [(100, 200)] in a [begin]
    scope, and the read on a fresh connection returns exactly six rows,
    the [i]-th equal (Python [==]) to the [i]-th inserted pair. *)
Theorem coords_scenario (e : engine) (w : world) :
  durable e w !! tabname = None ->
  exists w' rows,
    create_coords_table e w = (w', Ok rows) /\
    List.length rows = 6%nat /\
    Forall2 (fun r m => row_matches r m = true) rows (coords5 ++ coords1)%list.
Proof.
  intros H. unfold create_coords_table, io_bind, begin, connect.
  cbn [run_actions app]. rewrite durable_add_event, (exec_create_coords _ H).
  rewrite (exec_insert_coords _ [] coords5); [|apply lookup_insert_eq|repeat constructor].
  cbn [res_bind]. rewrite durable_add_event, durable_set, insert_insert_eq.
  rewrite (exec_insert_coords _ (([] ++ map (insert_row coords_columns ["x"; "y"] ["x"; "y"]) coords5)%list) coords1);
    [|apply lookup_insert_eq|repeat constructor].
  cbn [res_bind app]. rewrite durable_add_event, durable_set, insert_insert_eq.
  erewrite exec_select_coords by apply lookup_insert_eq.
  cbn [res_bind]. do 2 eexists. split; [reflexivity|].
  vm_compute. split; [reflexivity|]. repeat constructor.
Qed.

Lemma coords_scenario_witness :
  durable (sqlite_engine ANone) w_empty !! tabname = None /\
  exists w' rows,
    create_coords_table (sqlite_engine ANone) w_empty = (w', Ok rows) /\
    List.length rows = 6%nat /\
    Forall2 (fun r m => row_matches r m = true) rows (coords5 ++ coords1)%list.
Proof.
  split; [reflexivity|].
  apply coords_scenario. reflexivity.
Defined.

(** ** Uncommitted writes *)

Definition commits (acts : list action) : bool :=
  existsb (fun a => match a with Commit => true | Exec _ _ => false end) acts.

Lemma run_actions_no_commit (e : engine) (acts : list action) :
  forall w work, commits acts = false -> (run_actions e w work acts).1 = w.
Proof.
  induction acts as [|[s p|] r IH]; intros w work Hc; cbn in *; [reflexivity| |discriminate].
  destruct (execute work s p) as [[work' rows]|ex]; [|reflexivity].
  specialize (IH w work' Hc). destruct (run_actions e w work' r). cbn in *. exact IH.
Qed.

Lemma run_actions_result (e : engine) (acts : list action) :
  forall w1 w2 work, (run_actions e w1 work acts).2 = (run_actions e w2 work acts).2.
Proof.
  induction acts as [|[s p|] r IH]; intros w1 w2 work; cbn; [reflexivity| |apply IH].
  destruct (execute work s p) as [[work' rows]|ex]; [|reflexivity].
  specialize (IH w1 w2 work').
  destruct (run_actions e w1 work' r), (run_actions e w2 work' r). cbn in *. subst. reflexivity.
Qed.

(** Claim C4. A connection scope whose body never commits leaves the
    durable state as it was (the databases files and the handle's
    in-memory database; only the log records the connection), so any
    read from a fresh connection afterwards sees what it would have seen
    before the scope. *)
Theorem uncommitted_scope_discarded (e : engine) (acts : list action) (w : world) :
  commits acts = false ->
  files (connect e acts w).1 = files w /\
  mem (connect e acts w).1 = mem w /\
  durable e (connect e acts w).1 = durable e w /\
  (forall q, (connect e q (connect e acts w).1).2 = (connect e q w).2).
Proof.
  intros Hc.
  assert (Hw : (connect e acts w).1 = add_event (EvConnect (url e)) w).
  { unfold connect. apply run_actions_no_commit, Hc. }
  rewrite Hw. split; [reflexivity|]. split; [reflexivity|]. split; [apply durable_add_event|].
  intros q. unfold connect. rewrite !durable_add_event. apply run_actions_result.
Qed.

Definition coords_file_engine : engine := sqlite_engine (AStr "coords.db").

Definition uncommitted_body : list action :=
  [Exec create_coords PNone; Exec ins_stmt (PMany coords5)].

Lemma uncommitted_scope_discarded_witness :
  commits uncommitted_body = false /\
  files (connect coords_file_engine uncommitted_body w_empty).1 = files w_empty /\
  mem (connect coords_file_engine uncommitted_body w_empty).1 = mem w_empty /\
  durable coords_file_engine (connect coords_file_engine uncommitted_body w_empty).1
    = durable coords_file_engine w_empty /\
  (forall q, (connect coords_file_engine q (connect coords_file_engine uncommitted_body w_empty).1).2
             = (connect coords_file_engine q w_empty).2).
Proof.
  split; [reflexivity|].
  apply uncommitted_scope_discarded. reflexivity.
Defined.

(** ** In-memory handles and [dispose] *)

(** Claim C6. For a handle on [:memory:], whatever was written through
    it, committed or not, after [dispose] its database is empty and a
    read of any table from a fresh connection fails with "no such
    table". *)
Theorem memory_dispose_forgets (e : engine) (w : world) :
  location_of e = Memory ->
  durable e (dispose_world e w) = ∅ /\
  (forall t cols, (connect e [Exec (SelectFrom t cols) PNone] (dispose_world e w)).2
                  = Raise (StatementError ("no such table: " ++ t))).
Proof.
  intros Hm. assert (Hd : durable e (dispose_world e w) = ∅).
  { unfold durable, dispose_world. rewrite Hm. cbn. reflexivity. }
  split; [exact Hd|]. intros t cols.
  unfold connect. rewrite durable_add_event, Hd. reflexivity.
Qed.

Lemma memory_dispose_forgets_witness :
  location_of (sqlite_engine ANone) = Memory /\
  durable (sqlite_engine ANone)
    (dispose_world (sqlite_engine ANone) (create_coords_table (sqlite_engine ANone) w_empty).1) = ∅ /\
  (forall t cols, (connect (sqlite_engine ANone) [Exec (SelectFrom t cols) PNone]
     (dispose_world (sqlite_engine ANone) (create_coords_table (sqlite_engine ANone) w_empty).1)).2
     = Raise (StatementError ("no such table: " ++ t))).
Proof.
  split; [reflexivity|].
  apply memory_dispose_forgets. reflexivity.
Defined.

(** ** The migration revision *)

Definition users_table : table := {| tcols := users_columns; trows := [] |}.

(** Claim C7, as the code has it: on a schema without a [users] table,
    [upgrade] adds exactly [users(id integer primary key, "full name"
    unicode(100))] and [downgrade] then restores the original schema;
    on a schema that already has [users], [upgrade] fails. *)
Theorem migration_roundtrip (d : gmap string table) :
  (d !! USERS = None ->
     upgrade d = Ok (<[USERS := users_table]> d) /\
     res_bind (upgrade d) downgrade = Ok d) /\
  (forall tb, d !! USERS = Some tb ->
     upgrade d = Raise (StatementError "table users already exists")).
Proof.
  split.
  - intros H. unfold upgrade, exec_once. cbn [placeholders]. rewrite H.
    split; [reflexivity|]. cbn. unfold downgrade, exec_once. cbn [placeholders].
    rewrite lookup_insert_eq. cbn. rewrite delete_insert_id by exact H. reflexivity.
  - intros tb H. unfold upgrade, exec_once. cbn [placeholders]. rewrite H. reflexivity.
Qed.

(** Claim C7 fails as stated: when [users] already exists,
    downgrade after upgrade does not give the schema back. *)
Lemma migration_not_identity :
  res_bind (upgrade {[USERS := users_table]}) downgrade <> Ok {[USERS := users_table]}.
Proof. vm_compute. discriminate. Qed.

(* ================================================================== *)
(** * Further properties of the code *)

(** ** [str.split] *)

Lemma split_nonempty (sep : ascii) (s : string) : Py.split sep s <> [].
Proof.
  induction s as [|c r IH]; cbn; [discriminate|].
  destruct (Ascii.eqb c sep); [discriminate|].
  destruct (Py.split sep r); discriminate.
Qed.

(** [sep.join(s.split(sep)) == s], and [s.split(sep)] has one field
    more than [s] has separators. *)
Theorem split_join (sep : ascii) (s : string) :
  String.concat (String sep "") (Py.split sep s) = s /\
  List.length (Py.split sep s) = S (count_occ ascii_dec (list_ascii_of_string s) sep).
Proof.
  induction s as [|c r [IHj IHl]]; [split; reflexivity|].
  pose proof (split_nonempty sep r) as Hne.
  cbn [Py.split list_ascii_of_string count_occ].
  destruct (Ascii.eqb_spec c sep) as [->|Hc].
  - destruct (ascii_dec sep sep) as [_|]; [|contradiction].
    destruct (Py.split sep r) as [|f fs]; [contradiction|].
    split; [rewrite <- IHj; reflexivity|cbn in *; rewrite IHl; reflexivity].
  - destruct (ascii_dec c sep) as [|_]; [contradiction|].
    destruct (Py.split sep r) as [|f fs]; [contradiction|].
    split; [|exact IHl].
    rewrite <- IHj. destruct fs; reflexivity.
Qed.

(** A version string whose dot-separated components are all non-empty
    runs of at most 4300 decimal digits (CPython's default
    [int_max_str_digits]) always parses, each component to its decimal
    value: the import then never raises [ValueError]. *)
Theorem all_digit_version_parses (version : string) :
  forallb (fun c => negb (String.eqb c "") && forallb Py.is_digit (list_ascii_of_string c) &&
                    Nat.leb (List.length (list_ascii_of_string c)) Py.INT_MAX_STR_DIGITS)
          (Py.split "." version) = true ->
  parse_version version =
    Ok (map (fun c => decimal (list_ascii_of_string c)) (Py.split "." version)).
Proof.
  unfold parse_version. induction (Py.split "." version) as [|c r IH]; cbn; [reflexivity|].
  intros H. apply andb_prop in H as [Hc Hr]. apply andb_prop in Hc as [Hc Hlen].
  apply andb_prop in Hc as [He Hd]. apply Nat.leb_le in Hlen.
  unfold Py.int at 1.
  rewrite int_all_digits; [|destruct (String.eqb_spec c ""); [discriminate|assumption]|exact Hd|exact Hlen].
  cbn [res_bind]. rewrite (IH Hr). reflexivity.
Qed.

Lemma all_digit_version_parses_witness :
  forallb (fun c => negb (String.eqb c "") && forallb Py.is_digit (list_ascii_of_string c) &&
                    Nat.leb (List.length (list_ascii_of_string c)) Py.INT_MAX_STR_DIGITS)
          (Py.split "." "2.0.23") = true /\
  parse_version "2.0.23" =
    Ok (map (fun c => decimal (list_ascii_of_string c)) (Py.split "." "2.0.23")).
Proof.
  split; [reflexivity|]. apply all_digit_version_parses. reflexivity.
Defined.

(** ** Tuple comparison and the version gate *)

Lemma tuple_lt_irrefl (a : list Z) : Py.tuple_lt a a = false.
Proof. induction a as [|x a IH]; cbn; [reflexivity|]. rewrite Z.ltb_irrefl. exact IH. Qed.

Lemma tuple_lt_trans (a : list Z) : forall b c,
  Py.tuple_lt a b = true -> Py.tuple_lt b c = true -> Py.tuple_lt a c = true.
Proof.
  induction a as [|x a IH]; intros [|y b] [|z c]; cbn; try discriminate; auto.
  destruct (Z.ltb_spec x y), (Z.ltb_spec y x), (Z.ltb_spec y z), (Z.ltb_spec z y),
    (Z.ltb_spec x z), (Z.ltb_spec z x); intros Hab Hbc; try discriminate; try lia; eauto.
Qed.

Lemma tuple_lt_total (a : list Z) : forall b,
  Py.tuple_lt a b = true \/ a = b \/ Py.tuple_lt b a = true.
Proof.
  induction a as [|x a IH]; intros [|y b]; cbn; auto.
  destruct (Z.ltb_spec x y) as [Hxy|Hxy]; [auto|]. destruct (Z.ltb_spec y x) as [Hyx|Hyx]; [auto|].
  assert (x = y) as -> by lia. destruct (IH b) as [H|[->|H]]; auto.
Qed.

Lemma tuple_lt_prefix (a b : list Z) : Py.tuple_lt a (a ++ b) = true <-> b <> [].
Proof.
  induction a as [|x a IH]; cbn.
  - destruct b; split; congruence.
  - rewrite Z.ltb_irrefl. exact IH.
Qed.

(** Python's tuple [<] on version tuples is a strict total order
    (irreflexive, transitive, any two tuples comparable), in which a
    proper prefix is smaller: [(2, 0) < (2, 0, 0)]. *)
Theorem tuple_lt_strict_total_order :
  (forall a, Py.tuple_lt a a = false) /\
  (forall a b c, Py.tuple_lt a b = true -> Py.tuple_lt b c = true -> Py.tuple_lt a c = true) /\
  (forall a b, Py.tuple_lt a b = true \/ a = b \/ Py.tuple_lt b a = true) /\
  (forall a b, Py.tuple_lt a (a ++ b)%list = true <-> b <> []).
Proof.
  split; [exact tuple_lt_irrefl|]. split; [exact tuple_lt_trans|].
  split; [exact tuple_lt_total|exact tuple_lt_prefix].
Qed.

(** The version gate is monotone: when a version imports, every version
    that parses to a tuple not below it imports as well. *)
Theorem version_gate_monotone (v v' : string) (m : sqla_module) (t' : list Z) :
  import_module v = Ok m -> parse_version v' = Ok t' ->
  Py.tuple_lt t' (SQLALCHEMY_VERSION m) = false ->
  import_module v' = Ok {| SQLALCHEMY_VERSION := t' |}.
Proof.
  unfold import_module. intros Hv Hv' Hge. rewrite Hv'. cbn.
  destruct (parse_version v) as [t|]; cbn in Hv; [|discriminate].
  destruct (Py.tuple_lt t MIN_VERSION) eqn:Ht; [discriminate|].
  injection Hv as <-. cbn in Hge.
  destruct (Py.tuple_lt t' MIN_VERSION) eqn:Ht'; [|reflexivity].
  exfalso. destruct (tuple_lt_total t t') as [H|[<-|H]].
  - rewrite (tuple_lt_trans _ _ _ H Ht') in Ht. discriminate.
  - rewrite Ht' in Ht. discriminate.
  - rewrite H in Hge. discriminate.
Qed.

Lemma version_gate_monotone_witness :
  import_module "2.0.0" = Ok {| SQLALCHEMY_VERSION := [2; 0; 0]%Z |} /\
  parse_version "2.1.3" = Ok [2; 1; 3]%Z /\
  import_module "2.1.3" = Ok {| SQLALCHEMY_VERSION := [2; 1; 3]%Z |}.
Proof.
  split; [reflexivity|]. split; [reflexivity|].
  apply (version_gate_monotone "2.0.0" "2.1.3" {| SQLALCHEMY_VERSION := [2; 0; 0]%Z |});
    reflexivity.
Defined.

(** ** [str] of a [pathlib.Path] *)

Lemma split_fields_no_sep (sep : ascii) (s : string) : forall f,
  In f (Py.split sep s) -> ~ In sep (list_ascii_of_string f).
Proof.
  induction s as [|c r IH]; intros f; cbn.
  - intros [<-|[]]. cbn. tauto.
  - destruct (Ascii.eqb_spec c sep) as [->|Hc].
    + intros [<-|Hf]; [cbn; tauto|]. apply IH, Hf.
    + pose proof (IH) as IH'. destruct (Py.split sep r) as [|h t] eqn:E; [destruct (split_nonempty sep r E)|].
      intros [<-|Hf]; [|apply IH'; right; exact Hf].
      cbn. intros [Heq|Hin]; [congruence|]. apply (IH' h); [left; reflexivity|exact Hin].
Qed.

Lemma split_no_sep (sep : ascii) (x : string) :
  ~ In sep (list_ascii_of_string x) -> Py.split sep x = [x].
Proof.
  induction x as [|c r IH]; cbn; [reflexivity|]. intros Hn.
  destruct (Ascii.eqb_spec c sep); [tauto|]. rewrite IH by tauto. reflexivity.
Qed.

Lemma split_app_sep (sep : ascii) (x rest : string) :
  ~ In sep (list_ascii_of_string x) ->
  Py.split sep (x ++ String sep rest) = x :: Py.split sep rest.
Proof.
  induction x as [|c r IH]; intros Hn.
  - change ("" ++ String sep rest) with (String sep rest). cbn.
    rewrite Ascii.eqb_refl. reflexivity.
  - change (String c r ++ String sep rest) with (String c (r ++ String sep rest)).
    cbn in Hn |- *. destruct (Ascii.eqb_spec c sep); [tauto|]. rewrite IH by tauto. reflexivity.
Qed.

Lemma split_concat (sep : ascii) (P : list string) :
  P <> [] -> (forall f, In f P -> ~ In sep (list_ascii_of_string f)) ->
  Py.split sep (String.concat (String sep "") P) = P.
Proof.
  induction P as [|x [|y r] IH]; intros Hne Hf; [contradiction| |].
  - apply split_no_sep, Hf. left. reflexivity.
  - change (String.concat (String sep "") (x :: y :: r))
      with (x ++ String sep (String.concat (String sep "") (y :: r))).
    rewrite split_app_sep by (apply Hf; left; reflexivity).
    rewrite IH; [reflexivity|discriminate|]. intros f Hin. apply Hf. right. exact Hin.
Qed.

Definition keep_part (x : string) : bool := negb (String.eqb x "") && negb (String.eqb x ".").

(** [base.filter] on a boolean test, as [of_string] uses it. *)
Lemma filter_is_true {A} (f : A -> bool) (l : list A) :
  base.filter (fun x => Is_true (f x)) l = List.filter f l.
Proof.
  induction l as [|x r IH]; [reflexivity|]. cbn.
  destruct (f x); cbn; rewrite <- IH; reflexivity.
Qed.

Lemma filter_keep_id (P : list string) :
  (forall f, In f P -> keep_part f = true) -> List.filter keep_part P = P.
Proof.
  induction P as [|x r IH]; intros H; [reflexivity|]. cbn [List.filter].
  rewrite (H x (or_introl eq_refl)), IH; [reflexivity|]. intros f Hf. apply H. right. exact Hf.
Qed.

(** The text after a root: empty or not starting with a slash. *)
Lemma concat_parts_head (P : list string) :
  (forall f, In f P -> keep_part f = true /\ ~ In "/"%char (list_ascii_of_string f)) ->
  String.concat "/" P = "" \/
  exists c t, String.concat "/" P = String c t /\ c <> "/"%char.
Proof.
  destruct P as [|f r]; intros H; [left; reflexivity|right].
  destruct (H f (or_introl eq_refl)) as [Hk Hs].
  destruct f as [|c f']; [discriminate|].
  exists c. destruct r as [|y r]; [exists f'|exists (f' ++ "/" ++ String.concat "/" (y :: r))];
    (split; [reflexivity|]); intros ->; apply Hs; left; reflexivity.
Qed.

Lemma prefix_slash_head (y : string) :
  (y = "" \/ exists c t, y = String c t /\ c <> "/"%char) ->
  String.prefix "/" y = false.
Proof.
  intros [->|(c & t & -> & Hc)]; [reflexivity|]. cbn [String.prefix].
  destruct (ascii_dec "/" c); [congruence|reflexivity].
Qed.

Lemma of_string_normal (R : string) (P : list string) :
  (R = "" \/ R = "/" \/ R = "//") ->
  (forall f, In f P -> keep_part f = true /\ ~ In "/"%char (list_ascii_of_string f)) ->
  PyPath.of_string (PyPath.to_str {| PyPath.root := R; PyPath.parts := P |})
    = {| PyPath.root := R; PyPath.parts := P |}.
Proof.
  intros HR HP.
  assert (Hfilter : List.filter keep_part (Py.split "/" (String.concat "/" P)) = P).
  { destruct P as [|f r]; [reflexivity|].
    rewrite split_concat; [|discriminate|intros g Hg; apply HP, Hg].
    apply filter_keep_id. intros g Hg. apply HP, Hg. }
  pose proof (prefix_slash_head _ (concat_parts_head P HP)) as Hpre.
  unfold PyPath.of_string. rewrite filter_is_true. fold keep_part.
  destruct HR as [ -> | [ -> | -> ] ].
  - destruct P as [|f r]; [reflexivity|].
    change (PyPath.to_str {| PyPath.root := ""; PyPath.parts := f :: r |})
      with (String.concat "/" (f :: r)).
    assert (Hpre2 : String.prefix "//" (String.concat "/" (f :: r)) = false).
    { destruct (concat_parts_head (f :: r) HP) as [E|(c & t & E & Hc)]; rewrite E; [reflexivity|].
      cbn [String.prefix]. destruct (ascii_dec "/" c); [congruence|reflexivity]. }
    rewrite Hpre2, Hpre. cbn [andb]. rewrite Hfilter. reflexivity.
  - change (PyPath.to_str {| PyPath.root := "/"; PyPath.parts := P |})
      with (String (("/")%char) (String.concat "/" P)).
    cbn [String.prefix ascii_dec]. rewrite Hpre. cbn.
    destruct (Ascii.eqb "/" "/") eqn:E; [|discriminate].
    rewrite Hfilter. destruct (String.concat "/" P); reflexivity.
  - change (PyPath.to_str {| PyPath.root := "//"; PyPath.parts := P |})
      with (String (("/")%char) (String (("/")%char) (String.concat "/" P))).
    cbn [String.prefix]. rewrite Hpre. cbn. rewrite Hfilter. destruct (String.concat "/" P); reflexivity.
Qed.

Lemma of_string_root (s : string) :
  PyPath.root (PyPath.of_string s) = "" \/ PyPath.root (PyPath.of_string s) = "/" \/
  PyPath.root (PyPath.of_string s) = "//".
Proof.
  unfold PyPath.of_string. cbn [PyPath.root].
  destruct (String.prefix "//" s && negb (String.prefix "///" s)); [auto|].
  destruct (String.prefix "/" s); auto.
Qed.

Lemma of_string_parts (s f : string) :
  In f (PyPath.parts (PyPath.of_string s)) ->
  keep_part f = true /\ ~ In "/"%char (list_ascii_of_string f).
Proof.
  unfold PyPath.of_string. cbn [PyPath.parts]. rewrite filter_is_true. fold keep_part.
  rewrite filter_In. intros [Hin Hk]. split; [exact Hk|].
  exact (split_fields_no_sep "/" s f Hin).
Qed.

(** [str(Path(s))] is a normal form of the path and never empty:
    [Path(str(Path(s))) == Path(s)], and [str(Path(""))] is ".". So the
    location [get_sqlite_engine] builds is never empty, for any
    argument. *)
Theorem path_str_normal_form :
  (forall s, PyPath.of_string (PyPath.to_str (PyPath.of_string s)) = PyPath.of_string s) /\
  (forall s, PyPath.to_str (PyPath.of_string s) <> "") /\
  db_loc ANone = MEMORY /\
  (forall s, db_loc (AStr s) <> "") /\
  (forall s, db_loc (APath (PyPath.of_string s)) <> "").
Proof.
  assert (Hne : forall s, PyPath.to_str (PyPath.of_string s) <> "").
  { intros s. pose proof (of_string_root s) as HR. pose proof (of_string_parts s) as HP.
    destruct (PyPath.of_string s) as [R P]. cbn [PyPath.root PyPath.parts] in *.
    destruct HR as [ -> | [ -> | -> ] ]; [|discriminate|discriminate].
    destruct P as [|f r]; [discriminate|].
    destruct (HP f (or_introl eq_refl)) as [Hk _].
    destruct f as [|c f']; [discriminate|]. destruct r; discriminate. }
  split; [|split; [exact Hne|split; [reflexivity|split]]].
  - intros s. pose proof (of_string_root s) as HR. pose proof (of_string_parts s) as HP.
    destruct (PyPath.of_string s) as [R P]. apply of_string_normal; assumption.
  - intros s. unfold db_loc, truthy, py_str. destruct (String.eqb_spec s ""); cbn.
    + discriminate.
    + exact n.
  - intros s. apply Hne.
Qed.

(** ** The migration revision touches only [users] *)

(** [upgrade] and [downgrade] change no table but [users]; [downgrade]
    fails on a schema without [users]; [upgrade] cannot be applied
    twice in a row. *)
Theorem migration_frame (d : gmap string table) :
  (forall d', upgrade d = Ok d' ->
     d' !! USERS = Some users_table /\ forall t, t <> USERS -> d' !! t = d !! t) /\
  (forall d', downgrade d = Ok d' ->
     d' !! USERS = None /\ forall t, t <> USERS -> d' !! t = d !! t) /\
  (d !! USERS = None -> downgrade d = Raise (StatementError "no such table: users")) /\
  (forall d', upgrade d = Ok d' -> upgrade d' = Raise (StatementError "table users already exists")).
Proof.
  assert (Hup : forall d', upgrade d = Ok d' -> d' = <[USERS := users_table]> d).
  { unfold upgrade, exec_once. cbn [placeholders keys_match]. intros d'.
    destruct (d !! USERS); cbn; [discriminate|]. intros [= <-]. reflexivity. }
  split; [|split; [|split]].
  - intros d' H. rewrite (Hup d' H). split; [apply lookup_insert_eq|].
    intros t' Ht. apply lookup_insert_ne. congruence.
  - unfold downgrade, exec_once. cbn [placeholders keys_match]. intros d'.
    destruct (d !! USERS); cbn; [|discriminate]. intros [= <-].
    split; [apply lookup_delete_eq|]. intros t' Ht. apply lookup_delete_ne. congruence.
  - intros H. unfold downgrade, exec_once. cbn [placeholders keys_match]. rewrite H. reflexivity.
  - intros d' H. rewrite (Hup d' H). unfold upgrade, exec_once. cbn [placeholders keys_match].
    rewrite lookup_insert_eq. reflexivity.
Qed.

(** ** [hello_sql] *)

(** On any handle, [hello_sql] reads the single row
    [('Hello, SQLAlchemy!',)] and changes nothing but the log of
    connections: it writes nothing. *)
Theorem hello_sql_reads_only (e : engine) (w : world) :
  hello_sql e w = (add_event (EvConnect (url e)) w, Ok [[[VText "Hello, SQLAlchemy!"]]]).
Proof. reflexivity. Qed.

(** ** One run of the script *)

Lemma log_add_event (ev : event) (w : world) : log (add_event ev w) = (log w ++ [ev])%list.
Proof. reflexivity. Qed.

Lemma log_set_durable (e : engine) (w : world) (d : gmap string table) :
  log (set_durable e w d) = log w.
Proof. unfold set_durable. destruct (location_of e); reflexivity. Qed.

Lemma files_set_durable (e : engine) (w : world) (d : gmap string table) :
  location_of e = Memory -> files (set_durable e w d) = files w.
Proof. unfold set_durable. intros ->. reflexivity. Qed.

Lemma coords_run (e : engine) (w : world) :
  durable e w !! tabname = None ->
  exists w' rows,
    create_coords_table e w = (w', Ok rows) /\
    log w' = (log w ++ [EvConnect (url e); EvConnect (url e); EvConnect (url e)])%list /\
    (location_of e = Memory -> files w' = files w).
Proof.
  intros H. unfold create_coords_table, io_bind, begin, connect.
  cbn [run_actions app]. rewrite durable_add_event, (exec_create_coords _ H).
  rewrite (exec_insert_coords _ [] coords5); [|apply lookup_insert_eq|repeat constructor].
  cbn [res_bind]. rewrite durable_add_event, durable_set, insert_insert_eq.
  rewrite (exec_insert_coords _ (([] ++ map (insert_row coords_columns ["x"; "y"] ["x"; "y"]) coords5)%list) coords1);
    [|apply lookup_insert_eq|repeat constructor].
  cbn [res_bind app]. rewrite durable_add_event, durable_set, insert_insert_eq.
  erewrite exec_select_coords by apply lookup_insert_eq.
  cbn [res_bind]. do 2 eexists. split; [reflexivity|]. split.
  - cbn [io_ret]. repeat rewrite ?log_add_event, ?log_set_durable.
    rewrite <- !app_assoc. reflexivity.
  - intros Hm. cbn [io_ret]. unfold add_event at 1. cbn [files].
    rewrite files_set_durable by exact Hm. cbn [files add_event].
    rewrite files_set_durable by exact Hm. reflexivity.
Qed.

Definition memory_url : string := "sqlite+aiosqlite:///:memory:".

(** A run of the script on a library version that imports, starting
    with no [Coords] table in memory, succeeds; it creates one engine on
    [:memory:], opens four connections in turn (one in [hello_sql],
    three in [create_coords_table]), never touches a database file, and
    leaves the in-memory database empty after [dispose]. *)
Theorem run_script_end_to_end (version : string) (m : sqla_module) (w : world) :
  import_module version = Ok m -> mem w !! tabname = None ->
  run_script version w =
    ({| files := files w; mem := ∅;
        log := (log w ++ [EvCreateEngine memory_url; EvConnect memory_url; EvConnect memory_url;
                          EvConnect memory_url; EvConnect memory_url])%list |}, Ok tt).
Proof.
  intros Hi Hc. unfold run_script. rewrite Hi.
  unfold main, io_bind at 1, get_sqlite_engine.
  set (e := sqlite_engine ANone).
  assert (Hm : location_of e = Memory) by reflexivity.
  unfold io_bind at 1. rewrite hello_sql_reads_only.
  set (w2 := add_event (EvConnect (url e)) (add_event (EvCreateEngine (url e)) w)).
  assert (Hd : durable e w2 !! tabname = None).
  { unfold durable. rewrite Hm. exact Hc. }
  destruct (coords_run e w2 Hd) as (w3 & rows & Hrun & Hlog & Hfiles).
  unfold io_bind. rewrite Hrun. unfold dispose, dispose_world. rewrite Hm.
  rewrite (Hfiles Hm), Hlog. cbn. rewrite <- !app_assoc. reflexivity.
Qed.

Lemma run_script_end_to_end_witness :
  import_module "2.0.23" = Ok {| SQLALCHEMY_VERSION := [2; 0; 23]%Z |} /\
  mem w_empty !! tabname = None /\
  run_script "2.0.23" w_empty =
    ({| files := files w_empty; mem := ∅;
        log := (log w_empty ++ [EvCreateEngine memory_url; EvConnect memory_url; EvConnect memory_url;
                                EvConnect memory_url; EvConnect memory_url])%list |}, Ok tt).
Proof.
  split; [reflexivity|]. split; [reflexivity|].
  apply (run_script_end_to_end "2.0.23" {| SQLALCHEMY_VERSION := [2; 0; 23]%Z |});
    reflexivity.
Defined.

(** ** Which version tuples pass the gate *)

(** [SQLALCHEMY_VERSION < (2, 0, 0)] is false exactly for the tuples
    with major above 2, or major 2 and minor above 0, or [2, 0] followed
    by a non-negative third component (and anything after): "2" and
    "2.0" are refused, "2.0.0.1" and "3" pass. *)
Theorem version_gate_accepts (t : list Z) :
  Py.tuple_lt t MIN_VERSION = false <->
  (exists x r, t = x :: r /\ (2 < x)%Z) \/
  (exists y r, t = 2%Z :: y :: r /\ (0 < y)%Z) \/
  (exists z r, t = 2%Z :: 0%Z :: z :: r /\ (0 <= z)%Z).
Proof.
  unfold MIN_VERSION. split.
  - intros H. destruct t as [|x r]; [discriminate|]. cbn in H.
    destruct (Z.ltb_spec x 2) as [Hx|Hx]; [discriminate|].
    destruct (Z.ltb_spec 2 x) as [Hx'|Hx'].
    { left. exists x, r. split; [reflexivity|exact Hx']. }
    assert (x = 2%Z) as -> by lia.
    destruct r as [|y r]; [discriminate|]. cbn in H.
    destruct (Z.ltb_spec y 0) as [Hy|Hy]; [discriminate|].
    destruct (Z.ltb_spec 0 y) as [Hy'|Hy'].
    { right; left. exists y, r. split; [reflexivity|exact Hy']. }
    assert (y = 0%Z) as -> by lia.
    destruct r as [|z r]; [discriminate|]. cbn in H.
    destruct (Z.ltb_spec z 0) as [Hz|Hz]; [discriminate|].
    right; right. exists z, r. split; [reflexivity|exact Hz].
  - intros [(x & r & -> & H)|[(y & r & -> & H)|(z & r & -> & H)]]; cbn.
    + destruct (Z.ltb_spec x 2); [lia|]. destruct (Z.ltb_spec 2 x); [reflexivity|lia].
    + destruct (Z.ltb_spec y 0); [lia|]. destruct (Z.ltb_spec 0 y); [reflexivity|lia].
    + destruct (Z.ltb_spec z 0); [lia|]. destruct (Z.ltb_spec 0 z); [reflexivity|].
      destruct r; reflexivity.
Qed.

(** ** [engine.begin()]: all or nothing *)

Lemma run_actions_fail_commit (e : engine) (acts : list action) :
  forall w work ex, commits acts = false ->
  (run_actions e w work acts).2 = Raise ex ->
  run_actions e w work (acts ++ [Commit])%list = (w, Raise ex).
Proof.
  induction acts as [|[s p|] r IH]; intros w work ex Hc Hr; cbn in *; [discriminate| |discriminate].
  destruct (execute work s p) as [[work' rows]|ex']; [|cbn in Hr; congruence].
  destruct (run_actions e w work' r) as [w' out] eqn:E.
  destruct out as [ys|ex']; cbn in Hr; [discriminate|]. injection Hr as <-.
  rewrite (IH w work' ex' Hc); [reflexivity|]. rewrite E. reflexivity.
Qed.

(** A [begin] scope whose body fails leaves the durable state as it was
    (the writes before the failing statement are rolled back); the scope
    in [create_coords_table] relies on this transaction mode. *)
Theorem begin_failure_rolls_back (e : engine) (acts : list action) (w : world) (ex : exc) :
  commits acts = false ->
  (connect e acts w).2 = Raise ex ->
  begin e acts w = (add_event (EvConnect (url e)) w, Raise ex).
Proof.
  intros Hc Hr. unfold begin, connect in *. apply run_actions_fail_commit; assumption.
Qed.

Definition dup_insert_body : list action :=
  [Exec ins_stmt (PMany coords1); Exec create_coords PNone].

Lemma begin_failure_rolls_back_witness :
  commits dup_insert_body = false /\
  (connect (sqlite_engine ANone) dup_insert_body
     {| files := ∅; mem := {[tabname := {| tcols := coords_columns; trows := [] |}]}; log := [] |}).2
    = Raise (StatementError "table Coords already exists") /\
  begin (sqlite_engine ANone) dup_insert_body
     {| files := ∅; mem := {[tabname := {| tcols := coords_columns; trows := [] |}]}; log := [] |}
    = (add_event (EvConnect (url (sqlite_engine ANone)))
         {| files := ∅; mem := {[tabname := {| tcols := coords_columns; trows := [] |}]}; log := [] |},
       Raise (StatementError "table Coords already exists")).
Proof.
  split; [reflexivity|]. split; [vm_compute; reflexivity|].
  apply begin_failure_rolls_back; [reflexivity|vm_compute; reflexivity].
Defined.
